(** * mypy/scope.py: tracking the current fine-grained target

    A shallow embedding of the [Scope] class of [mypy/scope.py] and the
    properties of its query, enter/leave and save/restore operations.

    Conventions of the embedding:
    - the mutable object [self] becomes a record that every method takes and
      (when it mutates) returns;
    - a failing [assert] becomes the [AssertionError] result;
    - a generator decorated with [@contextmanager] becomes a pair of state
      transformers: the code before [yield] and the code after it. *)

From stdpp Require Import base numbers option strings list.

#[local] Open Scope Z_scope.

(** ** Results of methods that may hit an [assert] *)

Inductive result (A : Type) : Type :=
  | Ok (a : A)
  | AssertionError.

Arguments Ok {A} a.
Arguments AssertionError {A}.

#[global] Instance result_ret : MRet result := @Ok.

#[global] Instance result_bind : MBind result :=
  fun A B (k : A -> result B) (r : result A) =>
    match r with
    | Ok a => k a
    | AssertionError => AssertionError
    end.

#[global] Instance result_fmap : FMap result :=
  fun A B (g : A -> B) (r : result A) =>
    match r with
    | Ok a => Ok (g a)
    | AssertionError => AssertionError
    end.

(** ** Python truth values

    [if x], [assert x] and [x or y] test the truth value of [x]: [None], the
    empty string, the empty list and the integer zero are false. An instance
    of a class that defines neither [__bool__] nor [__len__] is true. *)

Class Truthy (A : Type) := truthy : A -> bool.

#[global] Instance truthy_str : Truthy string :=
  fun s => match s with EmptyString => false | String _ _ => true end.

#[global] Instance truthy_int : Truthy Z :=
  fun n => negb (n =? 0).

#[global] Instance truthy_list {A} : Truthy (list A) :=
  fun l => match l with [] => false | _ :: _ => true end.

#[global] Instance truthy_optional {A} `{Truthy A} : Truthy (option A) :=
  fun o => match o with None => false | Some a => truthy a end.

(** [if x: ... x.attr ...] on an optional value: the value when it is true. *)
Definition if_true {A} `{Truthy A} (x : option A) : option A :=
  match x with
  | Some a => if truthy a then Some a else None
  | None => None
  end.

(** [x or y] on strings. *)
Definition str_or (x y : string) : string :=
  if truthy x then x else y.

(** ** Nodes

    Modelled from the spec: [mypy.nodes.FuncBase] and [mypy.nodes.TypeInfo]
    are imported by [scope.py] but declared elsewhere. The spec describes a
    class identifier as paired with its fully-qualified name and its short
    name, and a function identifier as a short name plus a fully-qualified
    name; [scope.py] reads exactly the attributes [name] and [fullname] of
    both. They are plain objects, hence true in a boolean context. *)

Class SymbolNode (A : Type) := {
  name : A -> string;
  fullname : A -> string
}.

Record FuncBase : Type := mkFuncBase {
  func_name : string;
  func_fullname : string
}.

Record TypeInfo : Type := mkTypeInfo {
  info_name : string;
  info_fullname : string
}.

#[global] Instance FuncBase_node : SymbolNode FuncBase :=
  {| name := func_name; fullname := func_fullname |}.

#[global] Instance TypeInfo_node : SymbolNode TypeInfo :=
  {| name := info_name; fullname := info_fullname |}.

#[global] Instance truthy_FuncBase : Truthy FuncBase := fun _ => true.

#[global] Instance truthy_TypeInfo : Truthy TypeInfo := fun _ => true.

(** ** The tracker *)

(** [SavedScope = Tuple[str, Optional[TypeInfo], Optional[FuncBase]]] *)
Definition SavedScope : Type := string * option TypeInfo * option FuncBase.

(** The four attributes set by [Scope.__init__]. [classes] is outer-to-inner:
    [append] adds at the end, [classes[-1]] reads the end, [pop()] removes
    it, so [last] is [classes[-1]] with [None] standing for the empty list.
    [ignored] is a Python [int]. *)
Record Scope : Type := mkScope {
  module : option string;
  classes : list TypeInfo;
  function : option FuncBase;
  ignored : Z
}.

(** [Scope.__init__] *)
Definition init : Scope :=
  {| module := None; classes := []; function := None; ignored := 0 |}.

(** [assert self.module], giving the string the assertion has established. *)
Definition assert_module (self : Scope) : result string :=
  match module self with
  | Some m => if truthy m then Ok m else AssertionError
  | None => AssertionError
  end.

Definition current_module_id (self : Scope) : result string :=
  m ← assert_module self;
  mret m.

Definition current_target (self : Scope) : result string :=
  m ← assert_module self;
  match if_true (function self) with
  | Some f =>
      let fullname' := fullname f in
      mret (str_or fullname' "")
  | None => mret m
  end.

Definition current_full_target (self : Scope) : result string :=
  m ← assert_module self;
  match if_true (function self) with
  | Some f => mret (fullname f)
  | None =>
      match last (classes self) with
      | Some c => mret (fullname c)
      | None => mret m
      end
  end.

(** [self.classes[-1].name if self.classes else None]; no assertion. *)
Definition current_type_name (self : Scope) : result (option string) :=
  mret (name <$> last (classes self)).

(** [self.function.name if self.function else None]; no assertion. *)
Definition current_function_name (self : Scope) : result (option string) :=
  mret (name <$> if_true (function self)).

(** *** Context managers *)

Record ContextManager : Type := mkContextManager {
  cm_enter : Scope -> result Scope;
  cm_exit : Scope -> result Scope
}.

(** [with cm: body]. None of the generators below wraps its [yield] in
    [try]/[finally], so an assertion raised by the body skips the exit code. *)
Definition with_ (cm : ContextManager) (body : Scope -> result Scope)
    (self : Scope) : result Scope :=
  s1 ← cm_enter cm self;
  s2 ← body s1;
  cm_exit cm s2.

(** [with outer: with inner: yield] inside a generator. *)
Definition nested (outer inner : ContextManager) : ContextManager :=
  {| cm_enter := fun self => s1 ← cm_enter outer self; cm_enter inner s1;
     cm_exit := fun self => s1 ← cm_exit inner self; cm_exit outer s1 |}.

Definition nullcontext : ContextManager :=
  {| cm_enter := fun self => mret self; cm_exit := fun self => mret self |}.

Definition module_scope_enter (prefix : string) (self : Scope) : result Scope :=
  mret {| module := Some prefix; classes := []; function := None; ignored := 0 |}.

Definition module_scope_exit (self : Scope) : result Scope :=
  _ ← assert_module self;
  mret {| module := None; classes := classes self;
          function := function self; ignored := ignored self |}.

Definition module_scope (prefix : string) : ContextManager :=
  {| cm_enter := module_scope_enter prefix; cm_exit := module_scope_exit |}.

Definition function_scope_enter (fdef : FuncBase) (self : Scope) : result Scope :=
  if negb (truthy (function self)) then
    mret {| module := module self; classes := classes self;
            function := Some fdef; ignored := ignored self |}
  else
    mret {| module := module self; classes := classes self;
            function := function self; ignored := ignored self + 1 |}.

Definition function_scope_exit (self : Scope) : result Scope :=
  if truthy (ignored self) then
    mret {| module := module self; classes := classes self;
            function := function self; ignored := ignored self - 1 |}
  else
    if truthy (function self) then
      mret {| module := module self; classes := classes self;
              function := None; ignored := ignored self |}
    else AssertionError.

Definition function_scope (fdef : FuncBase) : ContextManager :=
  {| cm_enter := function_scope_enter fdef; cm_exit := function_scope_exit |}.

Definition enter_class (info : TypeInfo) (self : Scope) : result Scope :=
  if negb (truthy (function self)) then
    mret {| module := module self; classes := classes self ++ [info];
            function := function self; ignored := ignored self |}
  else
    mret {| module := module self; classes := classes self;
            function := function self; ignored := ignored self + 1 |}.

Definition leave_class (self : Scope) : result Scope :=
  if truthy (ignored self) then
    mret {| module := module self; classes := classes self;
            function := function self; ignored := ignored self - 1 |}
  else
    if truthy (classes self) then
      mret {| module := module self; classes := removelast (classes self);
              function := function self; ignored := ignored self |}
    else AssertionError.

Definition class_scope (info : TypeInfo) : ContextManager :=
  {| cm_enter := enter_class info; cm_exit := leave_class |}.

(** *** Save and restore *)

Definition save (self : Scope) : result SavedScope :=
  m ← assert_module self;
  let cls := last (classes self) in
  mret (m, cls, function self).

Definition saved_scope (saved : SavedScope) : ContextManager :=
  let '(module', info, function') := saved in
  nested (module_scope module')
    (nested
       (match if_true info with
        | Some i => class_scope i
        | None => nullcontext
        end)
       (match if_true function' with
        | Some f => function_scope f
        | None => nullcontext
        end)).

(** ** Sequences of enter and leave calls *)

Inductive call : Type :=
  | EnterModule (prefix : string)
  | LeaveModule
  | EnterFunction (fdef : FuncBase)
  | LeaveFunction
  | EnterClass (info : TypeInfo)
  | LeaveClass.

Definition step (c : call) (self : Scope) : result Scope :=
  match c with
  | EnterModule prefix => module_scope_enter prefix self
  | LeaveModule => module_scope_exit self
  | EnterFunction fdef => function_scope_enter fdef self
  | LeaveFunction => function_scope_exit self
  | EnterClass info => enter_class info self
  | LeaveClass => leave_class self
  end.

Fixpoint run (cs : list call) (self : Scope) : result Scope :=
  match cs with
  | [] => mret self
  | c :: cs' => s1 ← step c self; run cs' s1
  end.

(** Strictly paired calls: every enter is closed by the leave of its own
    kind, innermost first. *)
Inductive paired : list call -> Prop :=
  | paired_nil : paired []
  | paired_app a b : paired a -> paired b -> paired (a ++ b)
  | paired_module prefix body :
      paired body -> paired (EnterModule prefix :: body ++ [LeaveModule])
  | paired_function fdef body :
      paired body -> paired (EnterFunction fdef :: body ++ [LeaveFunction])
  | paired_class info body :
      paired body -> paired (EnterClass info :: body ++ [LeaveClass]).

Definition is_module_call (c : call) : bool :=
  match c with
  | EnterModule _ | LeaveModule => true
  | _ => false
  end.

(** No module scope is entered or left in the sequence. *)
Definition module_free (cs : list call) : Prop :=
  forallb (fun c => negb (is_module_call c)) cs = true.

(** Nesting depth reached by function and class calls started at depth [d];
    [None] when a leave has no open enter before it or a module call occurs. *)
Fixpoint nesting (d : nat) (cs : list call) : option nat :=
  match cs with
  | [] => Some d
  | (EnterFunction _ | EnterClass _) :: cs' => nesting (S d) cs'
  | (LeaveFunction | LeaveClass) :: cs' =>
      match d with
      | O => None
      | S d' => nesting d' cs'
      end
  | (EnterModule _ | LeaveModule) :: _ => None
  end.

(** States the tracker can be in: from [Scope.__init__] by any calls that do
    not hit an assertion. *)
Inductive reachable : Scope -> Prop :=
  | reachable_init : reachable init
  | reachable_step c s s' : reachable s -> step c s = Ok s' -> reachable s'.

(** A module is active: [self.module] is true. *)
Definition module_active (self : Scope) : bool :=
  truthy (module self).

(** The counter is not negative, and it is zero when no function is active:
    only an active function absorbs scopes. *)
Definition valid (self : Scope) : Prop :=
  0 <= ignored self /\ (function self = None -> ignored self = 0).

(** ** Basic facts *)

Lemma truthy_str_nonempty (x : string) : truthy x = true <-> x <> "".
Proof. destruct x; cbn; split; intros; congruence. Qed.

Lemma str_or_empty (x : string) : str_or x "" = x.
Proof. by destruct x. Qed.

Lemma assert_module_Ok (s : Scope) (m : string) :
  module s = Some m -> m <> "" -> assert_module s = Ok m.
Proof.
  intros Hm Hne. unfold assert_module. rewrite Hm.
  apply truthy_str_nonempty in Hne. by rewrite Hne.
Qed.

Lemma assert_module_inactive {A} (s : Scope) (k : string -> result A) :
  module_active s = false -> assert_module s ≫= k = AssertionError.
Proof.
  unfold module_active, assert_module. destruct (module s) as [m|]; cbn.
  - by intros ->.
  - done.
Qed.

Lemma if_true_function (o : option FuncBase) : if_true o = o.
Proof. by destruct o. Qed.

Lemma truthy_function_Some (s : Scope) (f : FuncBase) :
  function s = Some f -> truthy (function s) = true.
Proof. by intros ->. Qed.

(** ** Queries *)

(** C1. With a module active, [current_target] is the active function's
    fully-qualified name when a function is active and the module name
    otherwise. In particular, inside a function [g] nested in a function [f]
    that was entered with no function active, it is [f]'s name. *)
Theorem current_target_spec (s : Scope) (m : string) :
  module s = Some m -> m <> "" ->
  current_target s =
    Ok (match function s with Some f => fullname f | None => m end)
  /\ forall f g : FuncBase, function s = None ->
       exists s1 s2, function_scope_enter f s = Ok s1
         /\ function_scope_enter g s1 = Ok s2
         /\ current_target s1 = Ok (fullname f)
         /\ current_target s2 = Ok (fullname f).
Proof.
  intros Hm Hne. split.
  - unfold current_target. rewrite (assert_module_Ok s m Hm Hne); cbn.
    rewrite if_true_function. destruct (function s) as [f|]; cbn; [|done].
    by rewrite str_or_empty.
  - intros f g Hf. unfold function_scope_enter. rewrite Hf; cbn.
    eexists _, _. repeat split; unfold current_target, assert_module; cbn;
      rewrite Hm; apply truthy_str_nonempty in Hne; rewrite Hne; cbn;
      by rewrite str_or_empty.
Qed.

Lemma current_target_spec_witness :
  current_target
    {| module := Some "m"; classes := [];
       function := Some (mkFuncBase "f" "m.f"); ignored := 1 |} = Ok "m.f".
Proof.
  apply (current_target_spec
           {| module := Some "m"; classes := [];
              function := Some (mkFuncBase "f" "m.f"); ignored := 1 |} "m");
    [reflexivity | discriminate].
Defined.

(** C5. With a module active, [current_full_target] is the active function's
    fully-qualified name when a function is active; otherwise the innermost
    class's fully-qualified name when the class stack is not empty; otherwise
    the module name. In a class body entered with no function active,
    [current_target] is the module name and [current_full_target] the class's
    fully-qualified name. *)
Theorem current_full_target_spec (s : Scope) (m : string) :
  module s = Some m -> m <> "" ->
  current_full_target s =
    Ok (match function s with
        | Some f => fullname f
        | None =>
            match last (classes s) with
            | Some c => fullname c
            | None => m
            end
        end)
  /\ forall c : TypeInfo, function s = None ->
       exists s1, enter_class c s = Ok s1
         /\ current_target s1 = Ok m
         /\ current_full_target s1 = Ok (fullname c).
Proof.
  intros Hm Hne. split.
  - unfold current_full_target. rewrite (assert_module_Ok s m Hm Hne); cbn.
    rewrite if_true_function. by destruct (function s), (last (classes s)).
  - intros c Hf. unfold enter_class. rewrite Hf; cbn.
    eexists. split; [done|].
    unfold current_target, current_full_target, assert_module; cbn.
    rewrite Hm. apply truthy_str_nonempty in Hne. rewrite Hne; cbn.
    by rewrite last_snoc.
Qed.

Lemma current_full_target_spec_witness :
  current_full_target
    {| module := Some "m"; classes := [mkTypeInfo "A" "m.A"; mkTypeInfo "B" "m.A.B"];
       function := None; ignored := 0 |} = Ok "m.A.B".
Proof.
  apply (current_full_target_spec
           {| module := Some "m";
              classes := [mkTypeInfo "A" "m.A"; mkTypeInfo "B" "m.A.B"];
              function := None; ignored := 0 |} "m");
    [reflexivity | discriminate].
Defined.

(** C9. There is a state with an active module and an active function whose
    fully-qualified name is the empty string in which [current_target] is the
    empty string, which is neither the module name nor the function's short
    name. *)
Theorem current_target_empty_fullname :
  exists (s : Scope) (m : string) (f : FuncBase),
    module s = Some m /\ m <> "" /\ function s = Some f /\ fullname f = ""
    /\ current_target s = Ok ""
    /\ current_target s <> Ok m
    /\ current_target s <> Ok (name f).
Proof.
  exists {| module := Some "m"; classes := [];
            function := Some (mkFuncBase "f" ""); ignored := 0 |},
    "m", (mkFuncBase "f" "").
  repeat split; cbn; discriminate.
Qed.

(** C6, as stated, fails: with no module active (the state [Scope.__init__]
    builds), [current_type_name] and [current_function_name] return [None]
    instead of failing. *)
Lemma queries_inactive_not_all_fatal :
  ~ (forall s : Scope, module_active s = false ->
       current_module_id s = AssertionError
       /\ current_target s = AssertionError
       /\ current_full_target s = AssertionError
       /\ current_type_name s = AssertionError
       /\ current_function_name s = AssertionError).
Proof.
  intros H. destruct (H init eq_refl) as (_ & _ & _ & Hty & _).
  discriminate Hty.
Qed.

(** C6, amended. With no module active, [current_module_id],
    [current_target] and [current_full_target] fail their assertion;
    [current_type_name] and [current_function_name] do not look at the module
    and return the short name of the innermost class, respectively of the
    active function, or [None]. *)
Theorem queries_inactive (s : Scope) :
  module_active s = false ->
  current_module_id s = AssertionError
  /\ current_target s = AssertionError
  /\ current_full_target s = AssertionError
  /\ current_type_name s = Ok (name <$> last (classes s))
  /\ current_function_name s = Ok (name <$> function s).
Proof.
  intros H. unfold current_module_id, current_target, current_full_target.
  rewrite !assert_module_inactive by done.
  unfold current_function_name. by rewrite if_true_function.
Qed.

Lemma queries_inactive_witness :
  current_module_id
    {| module := Some ""; classes := [mkTypeInfo "A" "m.A"];
       function := None; ignored := 0 |} = AssertionError
  /\ current_type_name
    {| module := Some ""; classes := [mkTypeInfo "A" "m.A"];
       function := None; ignored := 0 |} = Ok (Some "A").
Proof.
  pose proof (queries_inactive
                {| module := Some ""; classes := [mkTypeInfo "A" "m.A"];
                   function := None; ignored := 0 |} eq_refl) as H.
  split; [exact (proj1 H) | exact (proj1 (proj2 (proj2 (proj2 H))))].
Defined.

(** ** Enter and leave *)

Lemma bind_Ok {A B} (a : A) (k : A -> result B) : Ok a ≫= k = k a.
Proof. reflexivity. Qed.

Lemma run_app (a b : list call) (s : Scope) :
  run (a ++ b) s = run a s ≫= run b.
Proof.
  revert s. induction a as [|c a IH]; intros s; cbn; [done|].
  destruct (step c s) as [s1|]; cbn; [apply IH | done].
Qed.

Lemma module_free_app (a b : list call) :
  module_free (a ++ b) <-> module_free a /\ module_free b.
Proof. unfold module_free. rewrite forallb_app. apply andb_true_iff. Qed.

Lemma module_free_cons (c : call) (cs : list call) :
  module_free (c :: cs) <-> is_module_call c = false /\ module_free cs.
Proof.
  unfold module_free; cbn. rewrite andb_true_iff, negb_true_iff. tauto.
Qed.

Lemma truthy_int_nonzero (n : Z) : n <> 0 -> truthy n = true.
Proof.
  intros Hn. unfold truthy, truthy_int. apply negb_true_iff. by apply Z.eqb_neq.
Qed.

Lemma truthy_snoc {A} (l : list A) (x : A) : truthy (l ++ [x]) = true.
Proof. by destruct l. Qed.

Lemma Scope_eta (s : Scope) :
  {| module := module s; classes := classes s;
     function := function s; ignored := ignored s |} = s.
Proof. by destruct s. Qed.

(** Entering a function from a valid state gives a valid state from which
    the leave returns to the first one. *)
Lemma function_scope_bracket (fdef : FuncBase) (s : Scope) :
  valid s ->
  exists s1, function_scope_enter fdef s = Ok s1 /\ valid s1
    /\ function_scope_exit s1 = Ok s.
Proof.
  intros [Hge Hnone]. unfold function_scope_enter.
  destruct (function s) as [f|] eqn:Hf; cbn.
  - eexists. split; [done|]. split.
    + split; cbn; [lia | discriminate].
    + unfold function_scope_exit; cbn.
      rewrite truthy_int_nonzero by lia. cbn.
      replace (ignored s + 1 - 1) with (ignored s) by lia.
      by rewrite <- Hf, Scope_eta.
  - eexists. split; [done|]. split.
    + split; cbn; [lia | discriminate].
    + unfold function_scope_exit; cbn.
      rewrite (Hnone eq_refl); cbn.
      by rewrite <- (Hnone eq_refl), <- Hf, Scope_eta.
Qed.

(** The same for a class. *)
Lemma class_scope_bracket (info : TypeInfo) (s : Scope) :
  valid s ->
  exists s1, enter_class info s = Ok s1 /\ valid s1 /\ leave_class s1 = Ok s.
Proof.
  intros [Hge Hnone]. unfold enter_class.
  destruct (function s) as [f|] eqn:Hf; cbn.
  - eexists. split; [done|]. split.
    + split; cbn; [lia | discriminate].
    + unfold leave_class; cbn.
      rewrite truthy_int_nonzero by lia. cbn.
      replace (ignored s + 1 - 1) with (ignored s) by lia.
      by rewrite <- Hf, Scope_eta.
  - eexists. split; [done|]. split.
    + split; cbn; [lia | intros _; by apply Hnone].
    + unfold leave_class; cbn.
      rewrite (Hnone eq_refl); cbn.
      rewrite truthy_snoc, removelast_last.
      by rewrite <- (Hnone eq_refl), <- Hf, Scope_eta.
Qed.

(** Strictly paired function and class calls, run from a valid state, end in
    that state. *)
Lemma paired_run (cs : list call) :
  paired cs -> module_free cs -> forall s, valid s -> run cs s = Ok s.
Proof.
  induction 1 as [|a b _ IHa _ IHb|prefix body _ _|fdef body _ IH|info body _ IH];
    intros Hfree s Hs.
  - done.
  - apply module_free_app in Hfree as [Ha Hb].
    by rewrite run_app, (IHa Ha s Hs), bind_Ok, (IHb Hb s Hs).
  - by apply module_free_cons in Hfree as [? _].
  - apply module_free_cons in Hfree as [_ Hfree].
    apply module_free_app in Hfree as [Hbody _].
    destruct (function_scope_bracket fdef s Hs) as (s1 & Henter & Hs1 & Hexit).
    cbn [run step]. rewrite Henter, bind_Ok, run_app, (IH Hbody s1 Hs1), bind_Ok.
    cbn [run step]. by rewrite Hexit.
  - apply module_free_cons in Hfree as [_ Hfree].
    apply module_free_app in Hfree as [Hbody _].
    destruct (class_scope_bracket info s Hs) as (s1 & Henter & Hs1 & Hexit).
    cbn [run step]. rewrite Henter, bind_Ok, run_app, (IH Hbody s1 Hs1), bind_Ok.
    cbn [run step]. by rewrite Hexit.
Qed.

(** C3. Entering a function while a function is active adds one to the
    counter and keeps the active function. When the counter was not negative,
    the matching leave, after any strictly paired function and class calls
    of the body, puts the counter back to its prior value and keeps the
    active function. *)
Theorem nested_function_absorbed (s : Scope) (f g : FuncBase) :
  function s = Some f ->
  exists s1, function_scope_enter g s = Ok s1
    /\ ignored s1 = ignored s + 1
    /\ function s1 = Some f
    /\ (0 <= ignored s ->
        forall body, paired body -> module_free body ->
        exists s2, run body s1 ≫= function_scope_exit = Ok s2
          /\ ignored s2 = ignored s
          /\ function s2 = Some f
          /\ with_ (function_scope g) (run body) s = Ok s2).
Proof.
  intros Hf.
  assert (Henter : function_scope_enter g s =
                   Ok {| module := module s; classes := classes s;
                         function := function s; ignored := ignored s + 1 |}).
  { unfold function_scope_enter. by rewrite Hf. }
  eexists. split; [exact Henter|]. cbn.
  split; [done|]. split; [done|].
  intros Hge body Hbody Hfree.
  assert (Hs : valid s) by (split; [done | by rewrite Hf]).
  destruct (function_scope_bracket g s Hs) as (s1 & Henter' & Hs1 & Hexit).
  rewrite Henter in Henter'. injection Henter' as <-.
  exists s. rewrite (paired_run body Hbody Hfree _ Hs1), bind_Ok, Hexit.
  repeat split; [done|].
  unfold with_; cbn. rewrite Henter, bind_Ok.
  by rewrite (paired_run body Hbody Hfree _ Hs1), bind_Ok.
Qed.

Lemma nested_function_absorbed_witness :
  exists s1,
    function_scope_enter (mkFuncBase "g" "m.f.g")
      {| module := Some "m"; classes := [];
         function := Some (mkFuncBase "f" "m.f"); ignored := 0 |} = Ok s1
    /\ ignored s1 = 1
    /\ function s1 = Some (mkFuncBase "f" "m.f")
    /\ exists s2, function_scope_exit s1 = Ok s2
         /\ ignored s2 = 0 /\ function s2 = Some (mkFuncBase "f" "m.f").
Proof.
  destruct (nested_function_absorbed
              {| module := Some "m"; classes := [];
                 function := Some (mkFuncBase "f" "m.f"); ignored := 0 |}
              (mkFuncBase "f" "m.f") (mkFuncBase "g" "m.f.g") eq_refl)
    as (s1 & Henter & Hign & Hfun & Hleave).
  exists s1. repeat split; try assumption.
  destruct (Hleave ltac:(cbn; lia) [] paired_nil eq_refl)
    as (s2 & Hexit & Hign2 & Hfun2 & _).
  exists s2. repeat split; assumption.
Defined.

(** C4, as stated, fails: a module scope is a strictly paired enter and
    leave, and [saved_scope] opens one while a module is active; its leave
    clears the module instead of putting the earlier one back. *)
Lemma paired_not_always_round_trip :
  ~ (forall (cs : list call) (s : Scope),
       paired cs -> reachable s -> valid s -> run cs s = Ok s).
Proof.
  intros H.
  specialize (H [EnterModule "m"; LeaveModule]
                {| module := Some "m"; classes := [];
                   function := None; ignored := 0 |}).
  assert (Hrun : run [EnterModule "m"; LeaveModule]
                   {| module := Some "m"; classes := [];
                      function := None; ignored := 0 |} = Ok init)
    by reflexivity.
  rewrite Hrun in H. discriminate H.
  - apply (paired_module "m" [] paired_nil).
  - apply (reachable_step (EnterModule "m") init); [constructor | reflexivity].
  - split; cbn; [lia | done].
Qed.

(** C4, amended. Strictly paired function and class calls, run from a state
    whose counter is not negative and is zero when no function is active, end
    in the state they started from. A module scope with a non-empty name
    around such calls ends in the state of a fresh tracker, whatever state it
    was entered from. *)
Theorem paired_round_trip (cs : list call) :
  paired cs -> module_free cs ->
  (forall s, valid s -> run cs s = Ok s)
  /\ (forall prefix s0, prefix <> "" ->
        run (EnterModule prefix :: cs ++ [LeaveModule]) s0 = Ok init).
Proof.
  intros Hcs Hfree. split.
  - by apply paired_run.
  - intros prefix s0 Hne. cbn [run step]. unfold module_scope_enter.
    cbn [mret result_ret]. rewrite bind_Ok, run_app.
    rewrite (paired_run cs Hcs Hfree) by (split; cbn; [lia | done]).
    rewrite bind_Ok. cbn [run step]. unfold module_scope_exit.
    by rewrite (assert_module_Ok (mkScope (Some prefix) [] None 0) prefix eq_refl Hne).
Qed.

Lemma paired_round_trip_witness :
  run [EnterFunction (mkFuncBase "f" "m.f"); EnterClass (mkTypeInfo "A" "A");
       LeaveClass; LeaveFunction; EnterClass (mkTypeInfo "B" "m.B"); LeaveClass]
    {| module := Some "m"; classes := [mkTypeInfo "C" "m.C"];
       function := None; ignored := 0 |}
  = Ok {| module := Some "m"; classes := [mkTypeInfo "C" "m.C"];
          function := None; ignored := 0 |}
  /\ run [EnterModule "n";
          EnterFunction (mkFuncBase "f" "m.f"); EnterClass (mkTypeInfo "A" "A");
          LeaveClass; LeaveFunction; EnterClass (mkTypeInfo "B" "m.B"); LeaveClass;
          LeaveModule]
       {| module := Some "m"; classes := [mkTypeInfo "C" "m.C"];
          function := None; ignored := 0 |}
     = Ok init.
Proof.
  assert (Hpaired : paired
            [EnterFunction (mkFuncBase "f" "m.f");
             EnterClass (mkTypeInfo "A" "A"); LeaveClass; LeaveFunction;
             EnterClass (mkTypeInfo "B" "m.B"); LeaveClass]).
  { apply (paired_app
             (EnterFunction (mkFuncBase "f" "m.f")
                :: (EnterClass (mkTypeInfo "A" "A") :: [] ++ [LeaveClass])
                ++ [LeaveFunction])
             (EnterClass (mkTypeInfo "B" "m.B") :: [] ++ [LeaveClass])).
    - apply paired_function, paired_class, paired_nil.
    - apply paired_class, paired_nil. }
  destruct (paired_round_trip _ Hpaired eq_refl) as [Hinner Hmodule].
  split.
  - apply Hinner. split; cbn; [lia | done].
  - apply (Hmodule "n"). discriminate.
Defined.

(** The walk through module [m], function [f] and nested function [g]:
    the target stays [m.f] inside [g], the counter goes to one and back, and
    the target is [m] again once [f] is left. *)
Example nested_function_walk :
  let f := mkFuncBase "f" "m.f" in
  let g := mkFuncBase "g" "m.f.g" in
  (s1 ← run [EnterModule "m"; EnterFunction f] init; current_target s1)
    = Ok "m.f"
  /\ (s2 ← run [EnterModule "m"; EnterFunction f; EnterFunction g] init;
      t ← current_target s2; mret (t, ignored s2))
    = Ok ("m.f", 1)
  /\ ignored <$> run [EnterModule "m"; EnterFunction f; EnterFunction g;
                      LeaveFunction] init
    = Ok 0
  /\ (s4 ← run [EnterModule "m"; EnterFunction f; EnterFunction g;
                LeaveFunction; LeaveFunction] init; current_target s4)
    = Ok "m".
Proof. repeat split. Qed.

(** ** Absorbed scopes *)

Lemma current_full_target_ext (s s' : Scope) :
  module s' = module s -> classes s' = classes s -> function s' = function s ->
  current_full_target s' = current_full_target s.
Proof.
  intros Hm Hc Hf. unfold current_full_target, assert_module.
  by rewrite Hm, Hc, Hf.
Qed.

(** While a function is active and the counter is above the depth of the
    open absorbed scopes, function and class calls only move the counter. *)
Lemma absorbed_run (f : FuncBase) (cs : list call) :
  forall (d d' : nat) (s : Scope),
    function s = Some f -> Z.of_nat d < ignored s ->
    nesting d cs = Some d' ->
    exists s', run cs s = Ok s'
      /\ module s' = module s /\ classes s' = classes s
      /\ function s' = Some f
      /\ ignored s' = ignored s - Z.of_nat d + Z.of_nat d'.
Proof.
  induction cs as [|c cs IH]; intros d d' s Hf Hd Hn.
  - injection Hn as <-. exists s. repeat split; [done | lia].
  - destruct c as [prefix| |fdef| |info|]; cbn in Hn; try discriminate Hn.
    + destruct (IH (S d) d'
                  {| module := module s; classes := classes s;
                     function := function s; ignored := ignored s + 1 |})
        as (s' & Hrun & Hm & Hc & Hf' & Hi); [done | cbn; lia | done |].
      exists s'. cbn [run step]. unfold function_scope_enter.
      rewrite (truthy_function_Some s f Hf). cbn in *.
      rewrite Hrun. repeat split; try done. lia.
    + destruct d as [|d0]; [discriminate Hn|].
      destruct (IH d0 d'
                  {| module := module s; classes := classes s;
                     function := function s; ignored := ignored s - 1 |})
        as (s' & Hrun & Hm & Hc & Hf' & Hi); [done | cbn; lia | done |].
      exists s'. cbn [run step]. unfold function_scope_exit.
      rewrite truthy_int_nonzero by lia. cbn in *.
      rewrite Hrun. repeat split; try done. lia.
    + destruct (IH (S d) d'
                  {| module := module s; classes := classes s;
                     function := function s; ignored := ignored s + 1 |})
        as (s' & Hrun & Hm & Hc & Hf' & Hi); [done | cbn; lia | done |].
      exists s'. cbn [run step]. unfold enter_class.
      rewrite (truthy_function_Some s f Hf). cbn in *.
      rewrite Hrun. repeat split; try done. lia.
    + destruct d as [|d0]; [discriminate Hn|].
      destruct (IH d0 d'
                  {| module := module s; classes := classes s;
                     function := function s; ignored := ignored s - 1 |})
        as (s' & Hrun & Hm & Hc & Hf' & Hi); [done | cbn; lia | done |].
      exists s'. cbn [run step]. unfold leave_class.
      rewrite truthy_int_nonzero by lia. cbn in *.
      rewrite Hrun. repeat split; try done. lia.
Qed.

(** C7. With a function active, entering a class adds one to the counter,
    leaves the class stack as it is and does not change
    [current_full_target]; when the counter was not negative, the result of
    [current_full_target] and the class stack stay the same after any
    function and class calls of the class body that close no scope opened
    before them. *)
Theorem class_in_function_absorbed (s : Scope) (f : FuncBase) (c : TypeInfo) :
  function s = Some f ->
  exists s1, enter_class c s = Ok s1
    /\ ignored s1 = ignored s + 1
    /\ classes s1 = classes s
    /\ current_full_target s1 = current_full_target s
    /\ (0 <= ignored s ->
        forall (body : list call) (d : nat), nesting 0 body = Some d ->
        exists s2, run body s1 = Ok s2
          /\ classes s2 = classes s
          /\ current_full_target s2 = current_full_target s).
Proof.
  intros Hf. unfold enter_class. rewrite (truthy_function_Some s f Hf). cbn.
  eexists. split; [done|]. cbn.
  split; [done|]. split; [done|]. split.
  - by apply current_full_target_ext.
  - intros Hge body d Hn.
    destruct (absorbed_run f body 0 d
                {| module := module s; classes := classes s;
                   function := function s; ignored := ignored s + 1 |})
      as (s2 & Hrun & Hm & Hc & Hf2 & _); [done | cbn; lia | done |].
    exists s2. cbn in *. repeat split; [done | done |].
    apply current_full_target_ext; [done | done | by rewrite Hf2].
Qed.

Lemma class_in_function_absorbed_witness :
  exists s1,
    enter_class (mkTypeInfo "A" "A")
      {| module := Some "m"; classes := [mkTypeInfo "C" "m.C"];
         function := Some (mkFuncBase "f" "m.C.f"); ignored := 0 |} = Ok s1
    /\ ignored s1 = 1
    /\ classes s1 = [mkTypeInfo "C" "m.C"]
    /\ current_full_target s1 = Ok "m.C.f"
    /\ exists s2,
         run [EnterFunction (mkFuncBase "g" "g"); EnterClass (mkTypeInfo "B" "B");
              LeaveClass] s1 = Ok s2
         /\ current_full_target s2 = Ok "m.C.f".
Proof.
  destruct (class_in_function_absorbed
              {| module := Some "m"; classes := [mkTypeInfo "C" "m.C"];
                 function := Some (mkFuncBase "f" "m.C.f"); ignored := 0 |}
              (mkFuncBase "f" "m.C.f") (mkTypeInfo "A" "A") eq_refl)
    as (s1 & Henter & Hign & Hcls & Hfull & Hbody).
  exists s1. repeat split; try assumption.
  destruct (Hbody ltac:(cbn; lia)
              [EnterFunction (mkFuncBase "g" "g"); EnterClass (mkTypeInfo "B" "B");
               LeaveClass] 1%nat eq_refl)
    as (s2 & Hrun & _ & Hfull2).
  exists s2. split; assumption.
Defined.

(** ** The counter *)

Lemma step_valid (c : call) (s s' : Scope) :
  valid s -> step c s = Ok s' -> valid s'.
Proof.
  intros [Hge Hnone] Hstep. destruct c; cbn in Hstep.
  - injection Hstep as <-. split; cbn; [lia | done].
  - unfold module_scope_exit in Hstep.
    destruct (assert_module s); [|discriminate Hstep].
    injection Hstep as <-. by split.
  - unfold function_scope_enter in Hstep.
    destruct (function s) eqn:Hf; cbn in Hstep; injection Hstep as <-;
      split; cbn; try lia; try discriminate; rewrite ?Hf; discriminate.
  - unfold function_scope_exit in Hstep.
    destruct (Z.eq_dec (ignored s) 0) as [H0|H0].
    + rewrite H0 in Hstep. cbn in Hstep.
      destruct (function s); [|discriminate Hstep].
      injection Hstep as <-. split; cbn; [lia | done].
    + rewrite truthy_int_nonzero in Hstep by done.
      injection Hstep as <-. split; cbn; [lia|].
      intros Hf. specialize (Hnone Hf). lia.
  - unfold enter_class in Hstep.
    destruct (function s) eqn:Hf; cbn in Hstep; injection Hstep as <-;
      split; cbn; try lia; try done; rewrite ?Hf; discriminate.
  - unfold leave_class in Hstep.
    destruct (Z.eq_dec (ignored s) 0) as [H0|H0].
    + rewrite H0 in Hstep. cbn in Hstep.
      destruct (classes s); [discriminate Hstep|].
      injection Hstep as <-. split; cbn; [lia | done].
    + rewrite truthy_int_nonzero in Hstep by done.
      injection Hstep as <-. split; cbn; [lia|].
      intros Hf. specialize (Hnone Hf). lia.
Qed.

Lemma reachable_valid (s : Scope) : reachable s -> valid s.
Proof.
  induction 1 as [|c s s' _ IH Hstep].
  - split; cbn; [lia | done].
  - by apply (step_valid c s s').
Qed.

(** C8. In every reachable state the counter is not negative. Leaving a
    function or a class takes one off the counter only when it is not zero,
    and leaves it at zero otherwise. *)
Theorem ignored_nonneg (s : Scope) :
  reachable s ->
  0 <= ignored s
  /\ forall (c : call) (s' : Scope),
       c = LeaveFunction \/ c = LeaveClass -> step c s = Ok s' ->
       (ignored s <> 0 /\ ignored s' = ignored s - 1)
       \/ (ignored s = 0 /\ ignored s' = 0).
Proof.
  intros Hs. split; [apply (reachable_valid s Hs)|].
  intros c s' Hc Hstep.
  destruct (Z.eq_dec (ignored s) 0) as [H0|H0].
  - right. split; [done|].
    pose proof (reachable_valid s' (reachable_step c s s' Hs Hstep)) as [Hge' _].
    destruct Hc as [-> | ->]; cbn in Hstep.
    + unfold function_scope_exit in Hstep. rewrite H0 in Hstep; cbn in Hstep.
      destruct (function s); [|discriminate Hstep]. by injection Hstep as <-.
    + unfold leave_class in Hstep. rewrite H0 in Hstep; cbn in Hstep.
      destruct (classes s); [discriminate Hstep|]. by injection Hstep as <-.
  - left. split; [done|].
    destruct Hc as [-> | ->]; cbn in Hstep.
    + unfold function_scope_exit in Hstep.
      rewrite truthy_int_nonzero in Hstep by done. by injection Hstep as <-.
    + unfold leave_class in Hstep.
      rewrite truthy_int_nonzero in Hstep by done. by injection Hstep as <-.
Qed.

Lemma ignored_nonneg_witness :
  0 <= ignored {| module := Some "m"; classes := [];
                  function := Some (mkFuncBase "f" "m.f"); ignored := 1 |}
  /\ leave_class {| module := Some "m"; classes := [];
                    function := Some (mkFuncBase "f" "m.f"); ignored := 1 |}
     = Ok {| module := Some "m"; classes := [];
             function := Some (mkFuncBase "f" "m.f"); ignored := 0 |}
  /\ ((1 <> 0 /\ 0 = 1 - 1) \/ (1 = 0 /\ 0 = 0)).
Proof.
  assert (Hreach : reachable
            {| module := Some "m"; classes := [];
               function := Some (mkFuncBase "f" "m.f"); ignored := 1 |}).
  { apply (reachable_step (EnterClass (mkTypeInfo "A" "A"))
             {| module := Some "m"; classes := [];
                function := Some (mkFuncBase "f" "m.f"); ignored := 0 |});
      [|reflexivity].
    apply (reachable_step (EnterFunction (mkFuncBase "f" "m.f"))
             {| module := Some "m"; classes := [];
                function := None; ignored := 0 |}); [|reflexivity].
    apply (reachable_step (EnterModule "m") init); [|reflexivity].
    apply reachable_init. }
  destruct (ignored_nonneg _ Hreach) as [Hge Hdec].
  split; [exact Hge|]. split; [reflexivity|].
  exact (Hdec LeaveClass
           {| module := Some "m"; classes := [];
              function := Some (mkFuncBase "f" "m.f"); ignored := 0 |}
           (or_intror eq_refl) eq_refl).
Defined.

(** ** Save and restore *)

(** The state built by entering a saved scope, from any state. *)
Lemma saved_scope_enter_state (m : string) (info : option TypeInfo)
    (fn : option FuncBase) (s0 : Scope) :
  cm_enter (saved_scope (m, info, fn)) s0 =
    Ok {| module := Some m; classes := option_list info;
          function := fn; ignored := 0 |}.
Proof. by destruct info, fn. Qed.

Lemma saved_scope_exit_state (m : string) (info : option TypeInfo)
    (fn : option FuncBase) :
  m <> "" ->
  cm_exit (saved_scope (m, info, fn))
    {| module := Some m; classes := option_list info;
       function := fn; ignored := 0 |} = Ok init.
Proof.
  intros Hne. destruct m as [|a m]; [done|]. by destruct info, fn.
Qed.

(** C2. With a module active, [save] succeeds, and entering [saved_scope]
    on what it returned, from any state of the tracker (the state saved,
    a state nested further inside it, or a state reached after leaving it),
    gives a state in which the five queries return what they returned when
    [save] was called. *)
Theorem save_restore_queries (s s0 : Scope) (m : string) :
  module s = Some m -> m <> "" ->
  exists (saved : SavedScope) (s' : Scope),
    save s = Ok saved
    /\ cm_enter (saved_scope saved) s0 = Ok s'
    /\ current_module_id s' = current_module_id s
    /\ current_target s' = current_target s
    /\ current_full_target s' = current_full_target s
    /\ current_type_name s' = current_type_name s
    /\ current_function_name s' = current_function_name s.
Proof.
  intros Hm Hne.
  exists (m, last (classes s), function s). eexists.
  split. { unfold save. by rewrite (assert_module_Ok s m Hm Hne). }
  split. { apply saved_scope_enter_state. }
  assert (Hlast : last (option_list (last (classes s))) = last (classes s))
    by (by destruct (last (classes s))).
  unfold current_module_id, current_target, current_full_target,
    current_type_name, current_function_name, assert_module; cbn.
  by rewrite Hm, Hlast.
Qed.

Lemma save_restore_queries_witness :
  exists (saved : SavedScope) (s' : Scope),
    save {| module := Some "m";
            classes := [mkTypeInfo "A" "m.A"; mkTypeInfo "B" "m.A.B"];
            function := Some (mkFuncBase "f" "m.A.B.f"); ignored := 2 |}
      = Ok saved
    /\ cm_enter (saved_scope saved) init = Ok s'
    /\ current_module_id s' = Ok "m"
    /\ current_target s' = Ok "m.A.B.f"
    /\ current_full_target s' = Ok "m.A.B.f"
    /\ current_type_name s' = Ok (Some "B")
    /\ current_function_name s' = Ok (Some "f").
Proof.
  apply (save_restore_queries
           {| module := Some "m";
              classes := [mkTypeInfo "A" "m.A"; mkTypeInfo "B" "m.A.B"];
              function := Some (mkFuncBase "f" "m.A.B.f"); ignored := 2 |}
           init "m"); [reflexivity | discriminate].
Defined.

(** C10. Leaving a saved scope, after strictly paired function and class
    calls in its body, ends in the state of a fresh tracker whatever state
    the saved scope was entered from: no module is active, the class stack is
    empty, no function is active and the counter is zero. When it was entered
    with a module active, the state it ends in is therefore not the state it
    was entered from. *)
Theorem saved_scope_leaves_no_module (m : string) (info : option TypeInfo)
    (fn : option FuncBase) (body : list call) (s : Scope) :
  m <> "" -> paired body -> module_free body ->
  exists s', with_ (saved_scope (m, info, fn)) (run body) s = Ok s'
    /\ module s' = None /\ classes s' = [] /\ function s' = None
    /\ ignored s' = 0
    /\ (module_active s = true -> s' <> s).
Proof.
  intros Hne Hbody Hfree. exists init.
  split; [|repeat split; try done; by intros Hact <-].
  unfold with_. rewrite saved_scope_enter_state, bind_Ok.
  rewrite (paired_run body Hbody Hfree), bind_Ok.
  - by apply saved_scope_exit_state.
  - split; cbn; [lia | done].
Qed.

Lemma saved_scope_leaves_no_module_witness :
  exists s',
    with_ (saved_scope ("m", Some (mkTypeInfo "A" "m.A"),
                        Some (mkFuncBase "f" "m.A.f")))
      (run [EnterFunction (mkFuncBase "g" "g"); LeaveFunction])
      {| module := Some "m"; classes := [mkTypeInfo "A" "m.A"];
         function := Some (mkFuncBase "f" "m.A.f"); ignored := 0 |}
    = Ok s'
    /\ module s' = None /\ classes s' = [] /\ function s' = None
    /\ ignored s' = 0
    /\ s' <> {| module := Some "m"; classes := [mkTypeInfo "A" "m.A"];
                function := Some (mkFuncBase "f" "m.A.f"); ignored := 0 |}.
Proof.
  destruct (saved_scope_leaves_no_module
              "m" (Some (mkTypeInfo "A" "m.A")) (Some (mkFuncBase "f" "m.A.f"))
              [EnterFunction (mkFuncBase "g" "g"); LeaveFunction]
              {| module := Some "m"; classes := [mkTypeInfo "A" "m.A"];
                 function := Some (mkFuncBase "f" "m.A.f"); ignored := 0 |}
              ltac:(discriminate)
              (paired_function (mkFuncBase "g" "g") [] paired_nil)
              eq_refl)
    as (s' & Hwith & Hm & Hc & Hf & Hi & Hne).
  exists s'. repeat split; try assumption. exact (Hne eq_refl).
Defined.

(** ** Further properties of the tracker *)

(** *** What the counter stands for *)

(** X1. In every reachable state, scopes are counted as absorbed only while a
    function is active: with no active function the counter is zero. *)
Theorem reachable_ignored_needs_function (s : Scope) :
  reachable s -> function s = None -> ignored s = 0.
Proof. intros Hs. by destruct (reachable_valid s Hs) as [_ Hnone]. Qed.

Lemma reachable_ignored_needs_function_witness :
  ignored {| module := Some "m"; classes := [mkTypeInfo "A" "m.A"];
             function := None; ignored := 0 |} = 0.
Proof.
  apply reachable_ignored_needs_function; [|reflexivity].
  apply (reachable_step (EnterClass (mkTypeInfo "A" "m.A"))
           {| module := Some "m"; classes := [];
              function := None; ignored := 0 |}); [|reflexivity].
  apply (reachable_step (EnterModule "m") init); [|reflexivity].
  apply reachable_init.
Defined.

(** X2. In a reachable state with no active function, a leave that has no enter
    to close is caught: leaving a function fails, leaving a class fails on an
    empty class stack, and otherwise removes exactly the innermost class. *)
Theorem unmatched_leave_detected (s : Scope) :
  reachable s -> function s = None ->
  function_scope_exit s = AssertionError
  /\ (classes s = [] -> leave_class s = AssertionError)
  /\ (forall l c, classes s = l ++ [c] ->
        leave_class s =
          Ok {| module := module s; classes := l;
                function := None; ignored := 0 |}).
Proof.
  intros Hs Hf. destruct (reachable_valid s Hs) as [_ Hnone].
  specialize (Hnone Hf).
  unfold function_scope_exit, leave_class. rewrite Hnone, Hf. cbn.
  split; [done|]. split.
  - by intros ->.
  - intros l c ->. by rewrite truthy_snoc, removelast_last.
Qed.

Lemma unmatched_leave_detected_witness :
  function_scope_exit init = AssertionError
  /\ leave_class init = AssertionError.
Proof.
  destruct (unmatched_leave_detected init reachable_init eq_refl)
    as (Hfun & Hcls & _).
  split; [exact Hfun | exact (Hcls eq_refl)].
Defined.

(** *** Scopes inside an active function *)

Ltac absorbed_step Hf Hrun :=
  cbn in Hrun; cbn [run step];
  unfold function_scope_enter, function_scope_exit, enter_class, leave_class;
  rewrite ?(truthy_function_Some _ _ Hf), ?truthy_int_nonzero by lia;
  cbn [negb mret result_ret];
  rewrite bind_Ok, Hrun;
  do 2 f_equal; lia.

(** With a function active and the counter at least the depth of the open
    absorbed scopes, function and class calls leave module, class stack and
    function alone and move the counter by the change of depth. *)
Lemma absorbed_calls (f : FuncBase) (cs : list call) :
  forall (d d' : nat) (s : Scope),
    function s = Some f -> Z.of_nat d <= ignored s ->
    nesting d cs = Some d' ->
    run cs s =
      Ok {| module := module s; classes := classes s; function := function s;
            ignored := ignored s - Z.of_nat d + Z.of_nat d' |}.
Proof.
  induction cs as [|c cs IH]; intros d d' s Hf Hd Hn.
  - injection Hn as <-. cbn.
    replace (ignored s - Z.of_nat d + Z.of_nat d) with (ignored s) by lia.
    by rewrite Scope_eta.
  - destruct c as [prefix| |fdef| |info|]; cbn in Hn; try discriminate Hn.
    + pose proof (IH (S d) d'
                    {| module := module s; classes := classes s;
                       function := function s; ignored := ignored s + 1 |}
                    Hf ltac:(cbn; lia) Hn) as Hrun.
      absorbed_step Hf Hrun.
    + destruct d as [|d0]; [discriminate Hn|].
      pose proof (IH d0 d'
                    {| module := module s; classes := classes s;
                       function := function s; ignored := ignored s - 1 |}
                    Hf ltac:(cbn; lia) Hn) as Hrun.
      absorbed_step Hf Hrun.
    + pose proof (IH (S d) d'
                    {| module := module s; classes := classes s;
                       function := function s; ignored := ignored s + 1 |}
                    Hf ltac:(cbn; lia) Hn) as Hrun.
      absorbed_step Hf Hrun.
    + destruct d as [|d0]; [discriminate Hn|].
      pose proof (IH d0 d'
                    {| module := module s; classes := classes s;
                       function := function s; ignored := ignored s - 1 |}
                    Hf ltac:(cbn; lia) Hn) as Hrun.
      absorbed_step Hf Hrun.
Qed.

(** X3. While a function is active (counter not negative), function and class
    calls that close no scope opened before them are invisible to all five
    queries. *)
Theorem absorbed_calls_invisible (s : Scope) (f : FuncBase)
    (cs : list call) (d : nat) :
  function s = Some f -> 0 <= ignored s -> nesting 0 cs = Some d ->
  exists s', run cs s = Ok s'
    /\ current_module_id s' = current_module_id s
    /\ current_target s' = current_target s
    /\ current_full_target s' = current_full_target s
    /\ current_type_name s' = current_type_name s
    /\ current_function_name s' = current_function_name s.
Proof.
  intros Hf Hge Hn. eexists.
  split; [exact (absorbed_calls f cs 0 d s Hf Hge Hn)|].
  by repeat split.
Qed.

Lemma absorbed_calls_invisible_witness :
  exists s',
    run [EnterClass (mkTypeInfo "A" "A"); EnterFunction (mkFuncBase "g" "g");
         LeaveFunction; EnterFunction (mkFuncBase "h" "h")]
      {| module := Some "m"; classes := [mkTypeInfo "C" "m.C"];
         function := Some (mkFuncBase "f" "m.C.f"); ignored := 0 |} = Ok s'
    /\ current_module_id s' = Ok "m"
    /\ current_target s' = Ok "m.C.f"
    /\ current_full_target s' = Ok "m.C.f"
    /\ current_type_name s' = Ok (Some "C")
    /\ current_function_name s' = Ok (Some "f").
Proof.
  apply (absorbed_calls_invisible
           {| module := Some "m"; classes := [mkTypeInfo "C" "m.C"];
              function := Some (mkFuncBase "f" "m.C.f"); ignored := 0 |}
           (mkFuncBase "f" "m.C.f")
           [EnterClass (mkTypeInfo "A" "A"); EnterFunction (mkFuncBase "g" "g");
            LeaveFunction; EnterFunction (mkFuncBase "h" "h")] 2%nat);
    [reflexivity | cbn; lia | reflexivity].
Defined.



(** *** Class scopes in a row *)

(** X5. Entering classes one after the other: with no function active they are
    appended to the class stack in the order entered, outermost first; with
    a function active the stack is untouched and each one is counted. *)
Theorem enter_classes_in_order (cs : list TypeInfo) (s : Scope) :
  run (EnterClass <$> cs) s =
    Ok (match function s with
        | None =>
            {| module := module s; classes := classes s ++ cs;
               function := None; ignored := ignored s |}
        | Some f =>
            {| module := module s; classes := classes s;
               function := Some f;
               ignored := ignored s + Z.of_nat (length cs) |}
        end).
Proof.
  revert s. induction cs as [|c cs IH]; intros s.
  - destruct s as [m l [f|] i]; cbn; do 2 f_equal; [lia | by rewrite app_nil_r].
  - cbn [fmap list_fmap run step]. unfold enter_class.
    destruct (function s) as [f|] eqn:Hf; cbn [truthy truthy_optional
      truthy_FuncBase negb mret result_ret]; rewrite bind_Ok, IH; cbn;
      rewrite ?Hf; do 2 f_equal; [lia | by rewrite <- app_assoc].
Qed.

(** *** The two targets *)

(** X6. [current_target] and [current_full_target] give the same answer, or fail
    alike, unless the tracker is in a class body outside any function. *)
Theorem targets_agree_outside_class_body (s : Scope) :
  function s <> None \/ classes s = [] ->
  current_target s = current_full_target s.
Proof.
  intros H. unfold current_target, current_full_target.
  destruct (assert_module s) as [m|]; [|done]. cbn.
  rewrite if_true_function.
  destruct (function s) as [f|]; [by rewrite str_or_empty|].
  destruct H as [H | ->]; [by destruct H | done].
Qed.

Lemma targets_agree_outside_class_body_witness :
  current_target
    {| module := Some "m"; classes := [mkTypeInfo "A" "m.A"];
       function := Some (mkFuncBase "f" "m.A.f"); ignored := 0 |}
  = current_full_target
    {| module := Some "m"; classes := [mkTypeInfo "A" "m.A"];
       function := Some (mkFuncBase "f" "m.A.f"); ignored := 0 |}.
Proof.
  apply targets_agree_outside_class_body. left. discriminate.
Defined.

(** *** Module scopes *)

(** X7. Entering a module scope forgets everything before it: whatever calls
    went before, the tracker goes on as a fresh one would. *)
Theorem module_scope_starts_afresh (before after : list call)
    (prefix : string) (s s1 : Scope) :
  run before s = Ok s1 ->
  run (before ++ EnterModule prefix :: after) s =
    run (EnterModule prefix :: after) init.
Proof. intros Hrun. by rewrite run_app, Hrun. Qed.

Lemma module_scope_starts_afresh_witness :
  run ([EnterModule "a"; EnterClass (mkTypeInfo "A" "a.A");
        EnterFunction (mkFuncBase "f" "a.A.f")]
         ++ EnterModule "b" :: [EnterClass (mkTypeInfo "B" "b.B")]) init
  = run (EnterModule "b" :: [EnterClass (mkTypeInfo "B" "b.B")]) init.
Proof.
  apply (module_scope_starts_afresh _ _ _ _
           {| module := Some "a"; classes := [mkTypeInfo "A" "a.A"];
              function := Some (mkFuncBase "f" "a.A.f"); ignored := 0 |}).
  reflexivity.
Defined.

(** X8. A module scope around strictly paired function and class calls can be
    left exactly when its name is not the empty string; an empty name makes
    the assertion of the exit fail. *)
Theorem module_scope_exit_needs_name (prefix : string) (body : list call)
    (s : Scope) :
  paired body -> module_free body ->
  with_ (module_scope prefix) (run body) s =
    if truthy prefix then Ok init else AssertionError.
Proof.
  intros Hbody Hfree. unfold with_. cbn [cm_enter cm_exit module_scope].
  unfold module_scope_enter. cbn [mret result_ret]. rewrite bind_Ok.
  rewrite (paired_run body Hbody Hfree) by (split; cbn; [lia | done]).
  rewrite bind_Ok. by destruct prefix.
Qed.

Lemma module_scope_exit_needs_name_witness :
  with_ (module_scope "")
    (run [EnterClass (mkTypeInfo "A" "A"); LeaveClass]) init
  = AssertionError.
Proof.
  apply (module_scope_exit_needs_name ""
           [EnterClass (mkTypeInfo "A" "A"); LeaveClass] init).
  - apply (paired_class (mkTypeInfo "A" "A") [] paired_nil).
  - reflexivity.
Defined.

(** *** Saved scopes *)

(** X9. Restore, then save: inside a saved scope with a non-empty module name,
    entered from any state, [save] returns the saved scope itself. *)
Theorem restore_then_save (m : string) (info : option TypeInfo)
    (fn : option FuncBase) (s0 : Scope) :
  m <> "" ->
  cm_enter (saved_scope (m, info, fn)) s0 ≫= save = Ok (m, info, fn).
Proof.
  intros Hne. rewrite saved_scope_enter_state, bind_Ok.
  unfold save.
  rewrite (assert_module_Ok (mkScope (Some m) (option_list info) fn 0) m
             eq_refl Hne). cbn.
  by destruct info.
Qed.

Lemma restore_then_save_witness :
  cm_enter (saved_scope ("m", Some (mkTypeInfo "A" "m.A"), None))
    {| module := Some "n"; classes := []; 
       function := Some (mkFuncBase "f" "n.f"); ignored := 3 |}
    ≫= save
  = Ok ("m", Some (mkTypeInfo "A" "m.A"), None).
Proof. apply restore_then_save. discriminate. Defined.

Lemma leave_class_pop (s : Scope) (l : list TypeInfo) (c : TypeInfo) :
  ignored s = 0 -> classes s = l ++ [c] ->
  leave_class s =
    Ok {| module := module s; classes := l;
          function := function s; ignored := ignored s |}.
Proof.
  intros Hi Hc. unfold leave_class. rewrite Hi, Hc. cbn.
  by rewrite truthy_snoc, removelast_last.
Qed.

(** X10. Only the innermost class is saved. From a state with two or more
    classes on the stack and no function active, leaving two classes works
    and leaving one uncovers the enclosing class; in the saved scope made from
    that state, leaving one class uncovers no class and leaving two fails. *)
Theorem restore_keeps_innermost_class_only (s s0 : Scope) (m : string)
    (outer : list TypeInfo) (c1 c2 : TypeInfo) :
  module s = Some m -> m <> "" -> function s = None -> ignored s = 0 ->
  classes s = outer ++ [c1; c2] ->
  (leave_class s ≫= current_type_name = Ok (Some (name c1))
   /\ run [LeaveClass; LeaveClass] s =
        Ok {| module := Some m; classes := outer;
              function := None; ignored := 0 |})
  /\ exists saved s',
       save s = Ok saved
       /\ cm_enter (saved_scope saved) s0 = Ok s'
       /\ current_type_name s' = Ok (Some (name c2))
       /\ leave_class s' ≫= current_type_name = Ok None
       /\ run [LeaveClass; LeaveClass] s' = AssertionError.
Proof.
  intros Hm Hne Hf Hi Hc.
  assert (Hc' : classes s = (outer ++ [c1]) ++ [c2])
    by (by rewrite <- app_assoc).
  pose proof (leave_class_pop s _ c2 Hi Hc') as Hleave1.
  pose proof (leave_class_pop
                {| module := module s; classes := outer ++ [c1];
                   function := function s; ignored := ignored s |}
                outer c1 Hi eq_refl) as Hleave2.
  cbn in Hleave2.
  split; [split|].
  - rewrite Hleave1, bind_Ok. unfold current_type_name; cbn.
    by rewrite last_snoc.
  - cbn [run step]. rewrite Hleave1, bind_Ok, Hleave2, bind_Ok.
    by rewrite Hm, Hf, Hi.
  - exists (m, Some c2, None). eexists.
    split. { unfold save. rewrite (assert_module_Ok s m Hm Hne). cbn.
             by rewrite Hc', last_snoc, Hf. }
    split; [apply saved_scope_enter_state|]. by repeat split.
Qed.

Lemma restore_keeps_innermost_class_only_witness :
  run [LeaveClass; LeaveClass]
    {| module := Some "m";
       classes := [mkTypeInfo "A" "m.A"; mkTypeInfo "B" "m.A.B"];
       function := None; ignored := 0 |}
  = Ok {| module := Some "m"; classes := []; function := None; ignored := 0 |}
  /\ exists saved s',
       save {| module := Some "m";
               classes := [mkTypeInfo "A" "m.A"; mkTypeInfo "B" "m.A.B"];
               function := None; ignored := 0 |} = Ok saved
       /\ cm_enter (saved_scope saved) init = Ok s'
       /\ current_type_name s' = Ok (Some "B")
       /\ leave_class s' ≫= current_type_name = Ok None
       /\ run [LeaveClass; LeaveClass] s' = AssertionError.
Proof.
  destruct (restore_keeps_innermost_class_only
              {| module := Some "m";
                 classes := [mkTypeInfo "A" "m.A"; mkTypeInfo "B" "m.A.B"];
                 function := None; ignored := 0 |}
              init "m" [] (mkTypeInfo "A" "m.A") (mkTypeInfo "B" "m.A.B")
              eq_refl ltac:(discriminate) eq_refl eq_refl eq_refl)
    as [[_ Hrun] Hsaved].
  split; [exact Hrun | exact Hsaved].
Defined.

(** X11. Once a saved scope with a non-empty module name has been left, the
    traversal that opened it cannot go on: with no module active, the three
    module-checking queries and [save] fail, and so does every leave, also
    the leaves of the scopes that were open when the saved scope was
    entered. *)
Theorem after_restore_nothing_open (m : string) (info : option TypeInfo)
    (fn : option FuncBase) (body : list call) (s : Scope) :
  m <> "" -> paired body -> module_free body ->
  let after := with_ (saved_scope (m, info, fn)) (run body) s in
  after ≫= module_scope_exit = AssertionError
  /\ after ≫= function_scope_exit = AssertionError
  /\ after ≫= leave_class = AssertionError
  /\ after ≫= current_module_id = AssertionError
  /\ after ≫= current_target = AssertionError
  /\ after ≫= current_full_target = AssertionError
  /\ after ≫= save = AssertionError.
Proof.
  intros Hne Hbody Hfree after.
  assert (Hafter : after = Ok init).
  { unfold after, with_. rewrite saved_scope_enter_state, bind_Ok.
    rewrite (paired_run body Hbody Hfree) by (split; cbn; [lia | done]).
    rewrite bind_Ok. by apply saved_scope_exit_state. }
  rewrite Hafter. by repeat split.
Qed.

Lemma after_restore_nothing_open_witness :
  with_ (saved_scope ("m", None, Some (mkFuncBase "f" "m.f"))) (run [])
    {| module := Some "m"; classes := [mkTypeInfo "A" "m.A"];
       function := None; ignored := 0 |}
    ≫= leave_class = AssertionError.
Proof.
  pose proof (after_restore_nothing_open
                "m" None (Some (mkFuncBase "f" "m.f")) []
                {| module := Some "m"; classes := [mkTypeInfo "A" "m.A"];
                   function := None; ignored := 0 |}
                ltac:(discriminate) paired_nil eq_refl) as H.
  exact (proj1 (proj2 (proj2 H))).
Defined.
